(** * SeismoScope: the feed loader and the filter of [app.py]

    A shallow embedding of the data acquisition, normalisation and filtering
    pipeline of the dashboard ([load_data] and the boolean-mask filter of
    [main]), with the properties of its specification stated over it.

    Magnitudes are IEEE binary64 values, as in the [float64] column that
    pandas builds; a missing magnitude is a NaN.  Timestamps are instants,
    given by their count of nanoseconds since the epoch; a missing timestamp
    is [NaT]. *)

From Stdlib Require Import ZArith List Bool Lia String.
From Stdlib Require Import Floats.
From Stdlib Require Import Sorted Permutation.
Import ListNotations.

Local Open Scope Z_scope.

Set Warnings "-register-all,-inexact-float".

(** ** IEEE comparisons

    Python's [<=] and [>=] on floats, and numpy's elementwise versions of
    them, are the IEEE 754 comparisons: every comparison with a NaN is
    false. *)

Module Float64.

Definition le (a b : float) : bool := (a <=? b)%float.
Definition ge (a b : float) : bool := (b <=? a)%float.
Definition lt (a b : float) : bool := (a <? b)%float.
Definition gt (a b : float) : bool := (b <? a)%float.

(** [numpy.isnan]: a NaN is the only value that differs from itself. *)
Definition isnan (a : float) : bool := negb (a =? a)%float.

End Float64.

(** ** Python values and exceptions

    [r.json()] yields nested Python values.  A dict is kept as the list of
    its items; a lookup reads the first binding of a key. *)

Inductive json : Type :=
| JNull
| JBool (b : bool)
| JInt (z : Z)
| JFloat (f : float)
| JString (s : string)
| JArray (items : list json)
| JObject (items : list (string * json)).

(** Every exception listed here derives from [Exception]. *)
Inductive exn : Type :=
| KeyError (key : json)
| TypeError
| IndexError
| ValueError
| OutOfBoundsDatetime
| ConnectionError
| Timeout
| HTTPError (status : Z)
| JSONDecodeError.

Inductive result (A : Type) : Type :=
| Ok (a : A)
| Raise (e : exn).

Arguments Ok {A} a.
Arguments Raise {A} e.

Definition bind {A B : Type} (m : result A) (k : A -> result B) : result B :=
  match m with
  | Ok a => k a
  | Raise e => Raise e
  end.

Notation "x <- m ;; k" := (bind m (fun x => k))
  (at level 61, m at next level, right associativity).

Fixpoint mapM {A B : Type} (f : A -> result B) (l : list A) : result (list B) :=
  match l with
  | [] => Ok []
  | a :: l' => b <- f a ;; bs <- mapM f l' ;; Ok (b :: bs)
  end.

Module Py.

Fixpoint lookup (k : string) (items : list (string * json)) : option json :=
  match items with
  | [] => None
  | (k', v) :: rest => if String.eqb k k' then Some v else lookup k rest
  end.

(** [v[k]] for a [str] key [k]. *)
Definition getitem (v : json) (k : string) : result json :=
  match v with
  | JObject items =>
      match lookup k items with
      | Some x => Ok x
      | None => Raise (KeyError (JString k))
      end
  | _ => Raise TypeError
  end.

(** [v[i]] for an [int] index [i >= 0]. *)
Definition getindex (v : json) (i : nat) : result json :=
  match v with
  | JArray items =>
      match nth_error items i with
      | Some x => Ok x
      | None => Raise IndexError
      end
  | JString s =>
      match String.get i s with
      | Some c => Ok (JString (String c EmptyString))
      | None => Raise IndexError
      end
  | JObject _ => Raise (KeyError (JInt (Z.of_nat i)))
  | _ => Raise TypeError
  end.

Fixpoint chars (s : string) : list json :=
  match s with
  | EmptyString => []
  | String c s' => JString (String c EmptyString) :: chars s'
  end.

(** The values a [for] loop over [v] visits. *)
Definition iter (v : json) : result (list json) :=
  match v with
  | JArray items => Ok items
  | JString s => Ok (chars s)
  | JObject items => Ok (map (fun kv => JString (fst kv)) items)
  | _ => Raise TypeError
  end.

End Py.

(** ** Timestamps

    A pandas [Timestamp] is an instant, or [NaT].  An instant is given here
    by its count of nanoseconds since the epoch, whatever the resolution
    pandas keeps it at. *)

Inductive Timestamp : Type :=
| NaT
| Ts (ns : Z).

Module Pd.

(** The instants that a signed 64-bit count of nanoseconds reaches, the
    least count being kept for [NaT]. *)
Definition Timestamp_min : Z := - 2 ^ 63 + 1.
Definition Timestamp_max : Z := 2 ^ 63 - 1.
Definition ns_per_ms : Z := 1000000.

Definition in_bounds (ns : Z) : bool :=
  (Timestamp_min <=? ns) && (ns <=? Timestamp_max).

(** The integers that numpy holds in 64 bits, signed or unsigned. *)
Definition fits_64_bits (t : Z) : bool := (- 2 ^ 63 <=? t) && (t <? 2 ^ 64).

Section ToDatetime.

(** What [pd.to_datetime(v, unit="ms")] does on a float, a string, a
    boolean or a container is left open, and so is what it does on a 64-bit
    integer whose nanoseconds go past the bounds above: the versions of
    pandas that keep every timestamp in nanoseconds refuse it, later ones
    keep it at a coarser resolution, and the repository pins no version.
    Every statement below holds whatever it is. *)
Variable to_datetime_other : json -> result Timestamp.

(** [pd.to_datetime(v, unit="ms")]: the milliseconds are scaled to the
    instant they denote; an integer that does not fit in 64 bits is
    refused. *)
Definition to_datetime (v : json) : result Timestamp :=
  match v with
  | JNull => Ok NaT
  | JInt t =>
      if in_bounds (t * ns_per_ms) then Ok (Ts (t * ns_per_ms))
      else if fits_64_bits t then to_datetime_other v
      else Raise OutOfBoundsDatetime
  | _ => to_datetime_other v
  end.



End ToDatetime.

End Pd.

(** ** Rows and frames

    One row per feature, with the six columns of the dict that [load_data]
    builds.  The cell type of the [mag] column is a parameter: the cells hold
    the feed's values as fetched when the frame is built, and binary64 values
    once pandas has typed the column [float64]. *)

Record Row (M : Type) : Type := mkRow {
  place : json;
  mag : M;
  time : Timestamp;
  longitude : json;
  latitude : json;
  depth : json
}.

Arguments mkRow {M}.
Arguments place {M}.
Arguments mag {M}.
Arguments time {M}.
Arguments longitude {M}.
Arguments latitude {M}.
Arguments depth {M}.

Definition DataFrame (M : Type) : Type := list (Row M).

(** [len(df)] and [df.empty]. *)
Definition len {M : Type} (df : DataFrame M) : nat := List.length df.

Definition empty {M : Type} (df : DataFrame M) : bool :=
  match df with
  | [] => true
  | _ :: _ => false
  end.

(** ** The feed loader *)

(** What [requests.get(url, timeout=10)] comes back with: an exception, or a
    response with its status code and, when the body is valid JSON, the value
    [r.json()] decodes. *)
Inductive http_outcome : Type :=
| NetworkFailure
| TimedOut
| Response (status : Z) (body : option json).

(** A call to [st.error]. *)
Inductive st_element : Type :=
| StError (e : exn).

Definition requests_get (h : http_outcome) : result (Z * option json) :=
  match h with
  | NetworkFailure => Raise ConnectionError
  | TimedOut => Raise Timeout
  | Response status body => Ok (status, body)
  end.

(** [r.raise_for_status()] raises on the 4xx and 5xx codes. *)
Definition raise_for_status (status : Z) : result unit :=
  if (400 <=? status) && (status <? 600) then Raise (HTTPError status)
  else Ok tt.

Definition response_json (body : option json) : result json :=
  match body with
  | Some data => Ok data
  | None => Raise JSONDecodeError
  end.

Section Loader.

Local Open Scope string_scope.

Variable to_datetime_other : json -> result Timestamp.

(** The dict built for one feature; its entries are evaluated in order. *)
Definition feature_record (feature : json) : result (Row json) :=
  properties <- Py.getitem feature "properties" ;;
  place_ <- Py.getitem properties "place" ;;
  properties <- Py.getitem feature "properties" ;;
  mag_ <- Py.getitem properties "mag" ;;
  properties <- Py.getitem feature "properties" ;;
  t <- Py.getitem properties "time" ;;
  time_ <- Pd.to_datetime to_datetime_other t ;;
  geometry <- Py.getitem feature "geometry" ;;
  coordinates <- Py.getitem geometry "coordinates" ;;
  longitude_ <- Py.getindex coordinates 0 ;;
  geometry <- Py.getitem feature "geometry" ;;
  coordinates <- Py.getitem geometry "coordinates" ;;
  latitude_ <- Py.getindex coordinates 1 ;;
  geometry <- Py.getitem feature "geometry" ;;
  coordinates <- Py.getitem geometry "coordinates" ;;
  depth_ <- Py.getindex coordinates 2 ;;
  Ok (mkRow place_ mag_ time_ longitude_ latitude_ depth_).

(** The body of the [try] block. *)
Definition load_try (h : http_outcome) : result (DataFrame json) :=
  r <- requests_get h ;;
  _ <- raise_for_status (fst r) ;;
  data <- response_json (snd r) ;;
  features <- Py.getitem data "features" ;;
  features <- Py.iter features ;;
  records <- mapM feature_record features ;;
  Ok records.

(** [load_data()]: the frame it returns and the elements it shows. *)
Definition load_data (h : http_outcome) : DataFrame json * list st_element :=
  match load_try h with
  | Ok df => (df, [])
  | Raise e => ([], [StError e])
  end.

(** The features of a payload that build a row on their own. *)
Definition parsable (feature : json) : bool :=
  match feature_record feature with
  | Ok _ => true
  | Raise _ => false
  end.

End Loader.

(** ** The numeric [mag] column

    [pd.DataFrame(records)] types a column of numbers and nulls [float64]:
    a null becomes a NaN, an integer of at most 53 bits the binary64 value
    that denotes it exactly.  Cells of any other kind are not covered: the
    filter below is stated on frames whose [mag] column is [float64]. *)

Definition float_of_int (z : Z) : float :=
  SF2Prim (binary_normalize prec emax z 0 false).

Definition float64_cell (v : json) : option float :=
  match v with
  | JNull => Some nan
  | JFloat f => Some f
  | JInt z => if Z.abs z <=? 2 ^ 53 then Some (float_of_int z) else None
  | _ => None
  end.

Definition float64_row (r : Row json) : option (Row float) :=
  match float64_cell (mag r) with
  | Some m =>
      Some (mkRow (place r) m (time r) (longitude r) (latitude r) (depth r))
  | None => None
  end.

Fixpoint float64_frame (df : DataFrame json) : option (DataFrame float) :=
  match df with
  | [] => Some []
  | r :: rest =>
      match float64_row r, float64_frame rest with
      | Some r', Some rest' => Some (r' :: rest')
      | _, _ => None
      end
  end.

(** ** The filter of [main] *)

Record FilterCriteria : Type := mkCriteria {
  min_mag : float;
  max_mag : float;
  start_datetime : Z;
  end_datetime : Z
}.

Module Series.

(** [df["mag"] >= x] and [df["mag"] <= x]. *)
Definition mag_ge (df : DataFrame float) (x : float) : list bool :=
  map (fun r => Float64.ge (mag r) x) df.

Definition mag_le (df : DataFrame float) (x : float) : list bool :=
  map (fun r => Float64.le (mag r) x) df.

(** A [NaT] compares false with every timestamp. *)
Definition ts_ge (t : Timestamp) (bound : Z) : bool :=
  match t with
  | NaT => false
  | Ts ns => bound <=? ns
  end.

Definition ts_le (t : Timestamp) (bound : Z) : bool :=
  match t with
  | NaT => false
  | Ts ns => ns <=? bound
  end.

(** [df["time"] >= t] and [df["time"] <= t]. *)
Definition time_ge (df : DataFrame float) (bound : Z) : list bool :=
  map (fun r => ts_ge (time r) bound) df.

Definition time_le (df : DataFrame float) (bound : Z) : list bool :=
  map (fun r => ts_le (time r) bound) df.

(** The elementwise [&] of two masks over the same index. *)
Fixpoint and (a b : list bool) : list bool :=
  match a, b with
  | x :: a', y :: b' => (x && y) :: and a' b'
  | _, _ => []
  end.

(** [df[mask]]: the rows whose mask entry is true, in frame order. *)
Fixpoint select {M : Type} (df : DataFrame M) (mask : list bool)
  : DataFrame M :=
  match df, mask with
  | r :: df', b :: mask' =>
      if b then r :: select df' mask' else select df' mask'
  | _, _ => []
  end.

End Series.

Definition filtered_df (df : DataFrame float) (c : FilterCriteria)
  : DataFrame float :=
  Series.select df
    (Series.and
       (Series.and
          (Series.and (Series.mag_ge df (min_mag c))
                      (Series.mag_le df (max_mag c)))
          (Series.time_ge df (start_datetime c)))
       (Series.time_le df (end_datetime c))).

(** The entry of the combined mask at one row. *)
Definition keeps (c : FilterCriteria) (r : Row float) : bool :=
  Float64.ge (mag r) (min_mag c) && Float64.le (mag r) (max_mag c)
  && Series.ts_ge (time r) (start_datetime c)
  && Series.ts_le (time r) (end_datetime c).

(** ** The sidebar

    [st.slider(label, min_value, max_value, value, step)] returns the value
    the user has picked on the track, which lies between [min_value] and
    [max_value], and [value] as long as nothing on the track is picked.  The
    label and the step have no part in these bounds.  The date and time
    inputs are kept as the two instants they are combined into. *)

Definition slider (min_value max_value value : float) (pick : option float)
  : float :=
  match pick with
  | Some v =>
      if Float64.le min_value v && Float64.le v max_value then v else value
  | None => value
  end.

Record sidebar_input : Type := mkInput {
  pick_min_mag : option float;
  pick_max_mag : option float;
  pick_start : Z;
  pick_end : Z
}.

(** The criteria that the widgets of [main] hand to the filter. *)
Definition sidebar (u : sidebar_input) : FilterCriteria :=
  let min_mag := slider 0 10 2.5 (pick_min_mag u) in
  let max_mag := slider min_mag 10 10 (pick_max_mag u) in
  mkCriteria min_mag max_mag (pick_start u) (pick_end u).

(** ** The memoised loader

    [@st.cache_data(ttl=300)]: the value that [load_data] returned is kept
    with the clock reading at which it was stored, and is served as long as
    the clock is below that reading plus the time to live.  The clock counts
    seconds. *)

Module Cache.

Definition ttl : Z := 300.

Record entry : Type := mkEntry {
  value : DataFrame json * list st_element;
  stored_at : Z
}.

Record state : Type := mkState {
  cached : option entry;
  requests : nat
}.

Definition cold : state := mkState None 0.

Definition live (now : Z) (e : entry) : bool := now <? stored_at e + ttl.

Definition hit (s : state) (now : Z) : bool :=
  match cached s with
  | Some e => live now e
  | None => false
  end.

Section Memo.

Variable to_datetime_other : json -> result Timestamp.

(** One call at clock reading [now].  On a miss [load_data] runs: it
    issues one request, which takes [took] seconds and comes back with
    [h], and its value is stored. *)
Definition call (s : state) (now took : Z) (h : http_outcome)
  : (DataFrame json * list st_element) * state :=
  match cached s with
  | Some e =>
      if live now e then (value e, s)
      else
        let v := load_data to_datetime_other h in
        (v, mkState (Some (mkEntry v (now + took))) (S (requests s)))
  | None =>
      let v := load_data to_datetime_other h in
      (v, mkState (Some (mkEntry v (now + took))) (S (requests s)))
  end.

End Memo.

End Cache.

(** ** Widening one bound of the criteria *)

Inductive widened (c : FilterCriteria) : FilterCriteria -> Prop :=
| lower_min (m : float) :
    Float64.le m (min_mag c) = true ->
    widened c (mkCriteria m (max_mag c) (start_datetime c) (end_datetime c))
| raise_max (m : float) :
    Float64.le (max_mag c) m = true ->
    widened c (mkCriteria (min_mag c) m (start_datetime c) (end_datetime c))
| earlier_start (t : Z) :
    t <= start_datetime c ->
    widened c (mkCriteria (min_mag c) (max_mag c) t (end_datetime c))
| later_end (t : Z) :
    end_datetime c <= t ->
    widened c (mkCriteria (min_mag c) (max_mag c) (start_datetime c) t).

(** ** Sample data *)

Module Sample.

Local Open Scope string_scope.

(** One way pandas may treat the time values left open above: it rejects
    them.  The payloads below carry integer times only and never reach
    it. *)
Definition reject : json -> result Timestamp := fun _ => Raise ValueError.

Definition feature (place mag time : json) (lon lat depth : float) : json :=
  JObject
    [("type", JString "Feature");
     ("properties",
       JObject [("mag", mag); ("place", place); ("time", time)]);
     ("geometry",
       JObject [("type", JString "Point");
                ("coordinates",
                  JArray [JFloat lon; JFloat lat; JFloat depth])])].

(** A feature without its geometry block. *)
Definition no_geometry (place mag time : json) : json :=
  JObject
    [("type", JString "Feature");
     ("properties",
       JObject [("mag", mag); ("place", place); ("time", time)])].

Definition payload (features : list json) : json :=
  JObject [("type", JString "FeatureCollection");
           ("features", JArray features)].

Definition row (m : float) (t : Timestamp) : Row float :=
  mkRow (JString "10 km N of Anza, CA") m t
    (JFloat (-116.5)) (JFloat 33.5) (JFloat 8).

End Sample.

(** ** The page

    [main] calls [load_data].  When [df.empty] holds it shows an advisory of
    its own and nothing else.  Otherwise it enters the branch that builds
    the sidebar and the dashboard from the frame; the widgets and charts of
    that branch can still raise (the start-date input does when its default
    falls before the earliest event), and what happens inside the branch is
    not followed here.  The elements that [load_data] has shown stay on the
    page. *)

Inductive view : Type :=
| Sidebar (df : DataFrame json)
| Unable.

Definition main (loaded : DataFrame json * list st_element)
  : list st_element * view :=
  (snd loaded,
   if empty (fst loaded) then Unable else Sidebar (fst loaded)).

(** ** The table

    [filtered_df.sort_values(by="time", ascending=...)]: the rows in the
    order of their timestamps, the rows without one last.  Rows with equal
    timestamps are left in the order they had, as a stable sort leaves them;
    no statement below depends on that order. *)

Inductive sort_option : Type :=
| LatestFirst
| OldestFirst.

(** [sort_option == "Oldest First"]. *)
Definition ascending (o : sort_option) : bool :=
  match o with
  | OldestFirst => true
  | LatestFirst => false
  end.

Module SortValues.

Definition precedes {M : Type} (asc : bool) (r x : Row M) : bool :=
  match time r, time x with
  | Ts a, Ts b => if asc then a <=? b else b <=? a
  | Ts _, NaT => true
  | NaT, NaT => true
  | NaT, Ts _ => false
  end.

Fixpoint insert {M : Type} (asc : bool) (r : Row M) (l : DataFrame M)
  : DataFrame M :=
  match l with
  | [] => [r]
  | x :: l' => if precedes asc r x then r :: l else x :: insert asc r l'
  end.

End SortValues.

Definition sort_values {M : Type} (asc : bool) (df : DataFrame M)
  : DataFrame M :=
  fold_right (SortValues.insert asc) [] df.

Definition display_df (df : DataFrame float) (c : FilterCriteria)
    (o : sort_option) : DataFrame float :=
  sort_values (ascending o) (filtered_df df c).

(** ** Reruns

    Streamlit runs [main] again on every interaction, and each run calls the
    memoised [load_data].  A run starts at a clock reading; the request it
    would issue takes some seconds and comes back with some outcome. *)

Record rerun : Type := mkRerun {
  started : Z;
  took : Z;
  outcome : http_outcome
}.

(** Each run starts once the call of the run before has returned. *)
Fixpoint sequential (now : Z) (runs : list rerun) : Prop :=
  match runs with
  | [] => True
  | r :: rest =>
      now <= started r /\ 0 <= took r /\ sequential (started r + took r) rest
  end.

Fixpoint last_started (d : Z) (runs : list rerun) : Z :=
  match runs with
  | [] => d
  | r :: rest => last_started (started r) rest
  end.

Section Reruns.

Variable to_datetime_other : json -> result Timestamp.

(** The values the runs get from [load_data], and the cache they leave. *)
Fixpoint reruns (s : Cache.state) (runs : list rerun)
  : list (DataFrame json * list st_element) * Cache.state :=
  match runs with
  | [] => ([], s)
  | r :: rest =>
      let c := Cache.call to_datetime_other s (started r) (took r) (outcome r) in
      let rs := reruns (snd c) rest in
      (fst c :: fst rs, snd rs)
  end.

End Reruns.

(** ** Auto refresh

    With the box ticked, [main] reads the interval in minutes off an integer
    slider from 1 to 30 that starts at 5, sleeps that long once the page is
    rendered, and reruns. *)

Definition slider_int (min_value max_value value : Z) (pick : option Z) : Z :=
  match pick with
  | Some v => if (min_value <=? v) && (v <=? max_value) then v else value
  | None => value
  end.

Definition refresh_interval (auto_refresh : bool) (pick : option Z)
  : option Z :=
  if auto_refresh then Some (slider_int 1 30 5 pick) else None.

(** The argument of [time.sleep]. *)
Definition sleep_seconds (interval : Z) : Z := interval * 60.

(** The sleep that ends a run of [main], after which the page reruns.  The
    box, the slider and the sleep all sit in the branch that builds the
    dashboard: there is none on the page of a failure, and in the other
    branch it is the sleep that a run reaches when it gets to its end. *)
Definition rerun_after (loaded : DataFrame json * list st_element)
    (auto_refresh : bool) (pick : option Z) : option Z :=
  if empty (fst loaded) then None
  else
    match refresh_interval auto_refresh pick with
    | Some interval => Some (sleep_seconds interval)
    | None => None
    end.

(** * Properties *)

(** ** IEEE comparisons *)

Module Float64Facts.

Ltac fold_compare :=
  repeat match goal with
    | |- context [PosDef.Pos.compare_cont Eq ?a ?b] =>
        change (PosDef.Pos.compare_cont Eq a b) with (Pos.compare a b) in *
    | H : context [PosDef.Pos.compare_cont Eq ?a ?b] |- _ =>
        change (PosDef.Pos.compare_cont Eq a b) with (Pos.compare a b) in *
    end.

Ltac order_cases :=
  fold_compare;
  repeat match goal with
    | |- context [Z.compare ?a ?b] => destruct (Z.compare_spec a b)
    | |- context [Pos.compare ?a ?b] => destruct (Pos.compare_spec a b)
    | H : context [Z.compare ?a ?b] |- _ => destruct (Z.compare_spec a b)
    | H : context [Pos.compare ?a ?b] |- _ => destruct (Pos.compare_spec a b)
    end;
  subst; try reflexivity; try discriminate; try lia.

Lemma SFleb_trans (x y z : spec_float) :
  SFleb x y = true -> SFleb y z = true -> SFleb x z = true.
Proof.
  unfold SFleb.
  destruct x as [sx| sx | |sx mx ex], y as [sy|sy| |sy my ey],
           z as [sz|sz| |sz mz ez]; cbn;
    try discriminate; try reflexivity;
    repeat match goal with s : bool |- _ => destruct s end; cbn;
    try discriminate; try reflexivity; intros Hxy Hyz; order_cases.
Qed.

Lemma SFleb_SFltb_false (x y : spec_float) :
  SFltb y x = true -> SFleb x y = false.
Proof.
  unfold SFleb, SFltb.
  destruct x as [sx| sx | |sx mx ex], y as [sy|sy| |sy my ey]; cbn;
    try discriminate; try reflexivity;
    repeat match goal with s : bool |- _ => destruct s end; cbn;
    try discriminate; try reflexivity; intros H; order_cases.
Qed.

Lemma SFleb_refl (x : spec_float) : SFeqb x x = true -> SFleb x x = true.
Proof.
  unfold SFleb, SFeqb.
  destruct x as [sx| sx | |sx mx ex]; cbn; try discriminate; try reflexivity;
    destruct sx; cbn; intros _; order_cases.
Qed.

Lemma le_trans (a b c : float) :
  Float64.le a b = true -> Float64.le b c = true -> Float64.le a c = true.
Proof. unfold Float64.le. rewrite !leb_spec. apply SFleb_trans. Qed.

Lemma lt_not_le (a b : float) :
  Float64.lt b a = true -> Float64.le a b = false.
Proof.
  unfold Float64.le, Float64.lt. rewrite leb_spec, ltb_spec.
  apply SFleb_SFltb_false.
Qed.

Lemma le_refl (a : float) : Float64.isnan a = false -> Float64.le a a = true.
Proof.
  unfold Float64.le, Float64.isnan. rewrite leb_spec, eqb_spec. intros H.
  apply SFleb_refl. now destruct (SFeqb (Prim2SF a) (Prim2SF a)).
Qed.

Lemma le_nan_l (a b : float) :
  Float64.isnan a = true -> Float64.le a b = false.
Proof.
  unfold Float64.le, Float64.isnan. rewrite leb_spec, eqb_spec.
  unfold SFleb, SFeqb.
  destruct (Prim2SF a) as [s|s| |s m e]; try reflexivity; cbn.
  - now destruct s.
  - now destruct s.
  - destruct s; cbn; rewrite Z.compare_refl, Pos.compare_refl; discriminate.
Qed.

Lemma le_nan_r (a b : float) :
  Float64.isnan b = true -> Float64.le a b = false.
Proof.
  unfold Float64.le, Float64.isnan. rewrite leb_spec, eqb_spec.
  unfold SFleb, SFeqb.
  destruct (Prim2SF b) as [s|s| |s m e]; cbn.
  - now destruct s.
  - now destruct s.
  - now destruct (Prim2SF a).
  - destruct s; cbn; rewrite Z.compare_refl, Pos.compare_refl; discriminate.
Qed.

Lemma le_not_nan (a b : float) :
  Float64.le a b = true -> Float64.isnan a = false /\ Float64.isnan b = false.
Proof.
  intros H. split.
  - destruct (Float64.isnan a) eqn:E; [|reflexivity].
    rewrite (le_nan_l a b E) in H. discriminate.
  - destruct (Float64.isnan b) eqn:E; [|reflexivity].
    rewrite (le_nan_r a b E) in H. discriminate.
Qed.

End Float64Facts.

(** ** Subsequences *)

Inductive Subseq {A : Type} : list A -> list A -> Prop :=
| Subseq_nil : Subseq [] []
| Subseq_skip (x : A) (l1 l2 : list A) : Subseq l1 l2 -> Subseq l1 (x :: l2)
| Subseq_take (x : A) (l1 l2 : list A) :
    Subseq l1 l2 -> Subseq (x :: l1) (x :: l2).

#[local] Hint Constructors Subseq : core.

Lemma Subseq_filter {A : Type} (p : A -> bool) (l : list A) :
  Subseq (List.filter p l) l.
Proof. induction l as [|x l IH]; cbn; [|destruct (p x)]; auto. Qed.

Lemma Subseq_length {A : Type} (l1 l2 : list A) :
  Subseq l1 l2 -> (List.length l1 <= List.length l2)%nat.
Proof. induction 1; cbn; lia. Qed.

(** The positions of a subsequence in the list it is drawn from rise with the
    positions in the subsequence. *)
Lemma Subseq_positions {A : Type} (l1 l2 : list A) :
  Subseq l1 l2 ->
  exists pos : nat -> nat,
    (forall i j, (i < j < List.length l1)%nat -> (pos i < pos j)%nat) /\
    (forall i, (i < List.length l1)%nat ->
               nth_error l2 (pos i) = nth_error l1 i).
Proof.
  induction 1 as [|x l1 l2 _ [pos [Hmono Hnth]]|x l1 l2 _ [pos [Hmono Hnth]]].
  - exists (fun i => i). split; cbn; intros; lia.
  - exists (fun i => S (pos i)). split.
    + intros i j Hij. specialize (Hmono i j Hij). lia.
    + intros i Hi. cbn. now apply Hnth.
  - exists (fun i => match i with O => O | S i' => S (pos i') end). split.
    + intros [|i] [|j] Hij; cbn in Hij; try lia.
      assert (pos i < pos j)%nat by (apply Hmono; lia). lia.
    + intros [|i] Hi; cbn in *; [reflexivity|]. apply Hnth. lia.
Qed.

Lemma filter_idempotent {A : Type} (p : A -> bool) (l : list A) :
  List.filter p (List.filter p l) = List.filter p l.
Proof.
  induction l as [|x l IH]; cbn; [reflexivity|].
  destruct (p x) eqn:E; cbn; [rewrite E, IH|]; auto.
Qed.

Lemma filter_length_mono {A : Type} (p q : A -> bool) (l : list A) :
  (forall x, p x = true -> q x = true) ->
  (List.length (List.filter p l) <= List.length (List.filter q l))%nat.
Proof.
  intros Hpq. induction l as [|x l IH]; cbn; [lia|].
  destruct (p x) eqn:E.
  - rewrite (Hpq x E). cbn. lia.
  - destruct (q x); cbn; lia.
Qed.

Lemma filter_none {A : Type} (p : A -> bool) (l : list A) :
  (forall x, In x l -> p x = false) -> List.filter p l = [].
Proof.
  induction l as [|x l IH]; cbn; intros H; [reflexivity|].
  rewrite (H x (or_introl eq_refl)). apply IH. intros y Hy. apply H. now right.
Qed.

(** ** The filter, row by row *)

(** Indexing a frame with the conjunction of four masks computed from its own
    rows keeps exactly the rows on which the four tests hold. *)
Lemma select_masks {M : Type} (p1 p2 p3 p4 : Row M -> bool) (df : DataFrame M) :
  Series.select df
    (Series.and (Series.and (Series.and (map p1 df) (map p2 df)) (map p3 df))
       (map p4 df))
  = List.filter (fun r => p1 r && p2 r && p3 r && p4 r) df.
Proof.
  induction df as [|r df IH]; cbn; [reflexivity|].
  rewrite IH. reflexivity.
Qed.

Lemma filtered_df_keeps (df : DataFrame float) (c : FilterCriteria) :
  filtered_df df c = List.filter (keeps c) df.
Proof. apply select_masks. Qed.

Lemma keeps_spec (c : FilterCriteria) (r : Row float) :
  keeps c r = true <->
  (Float64.isnan (mag r) = false /\
   Float64.le (min_mag c) (mag r) = true /\
   Float64.le (mag r) (max_mag c) = true) /\
  (exists ns, time r = Ts ns /\ start_datetime c <= ns <= end_datetime c).
Proof.
  unfold keeps, Float64.ge. rewrite !andb_true_iff. split.
  - intros [[[Hmin Hmax] Hs] He]. split.
    + split; [|split]; auto. apply (Float64Facts.le_not_nan _ _ Hmax).
    + destruct (time r) as [|ns]; cbn in *; [discriminate|].
      exists ns. split; [reflexivity|lia].
  - intros [[_ [Hmin Hmax]] [ns [Ht [Hs He]]]]. rewrite Ht. cbn.
    repeat split; auto; lia.
Qed.

Lemma keeps_inverted (c : FilterCriteria) (r : Row float) :
  end_datetime c < start_datetime c \/
  Float64.gt (min_mag c) (max_mag c) = true ->
  keeps c r = false.
Proof.
  intros Hinv. destruct (keeps c r) eqn:E; [|reflexivity].
  apply keeps_spec in E. destruct E as [[_ [Hmin Hmax]] [ns [_ Hns]]].
  destruct Hinv as [Ht|Hm]; [lia|].
  pose proof (Float64Facts.le_trans _ _ _ Hmin Hmax) as Hle.
  rewrite (Float64Facts.lt_not_le _ _ Hm) in Hle. discriminate.
Qed.

(** ** The filter engine *)

(** C2: a row is in the filter's output if and only if it is a row of the
    input whose magnitude is present and lies between [min_mag] and
    [max_mag], and whose time is present and lies between the start and the
    end of the window, the four bounds included.  In particular a row whose
    magnitude equals [min_mag] is kept when its other three comparisons
    hold, and a row whose magnitude is missing is kept by no criteria. *)
Theorem filter_membership (df : DataFrame float) (c : FilterCriteria) :
  (forall r,
      In r (filtered_df df c) <->
      In r df /\
      (Float64.isnan (mag r) = false /\
       Float64.le (min_mag c) (mag r) = true /\
       Float64.le (mag r) (max_mag c) = true) /\
      (exists ns, time r = Ts ns /\ start_datetime c <= ns <= end_datetime c))
  /\
  (forall r,
      In r df ->
      Float64.isnan (mag r) = false ->
      mag r = min_mag c ->
      Float64.le (mag r) (max_mag c) = true ->
      (exists ns, time r = Ts ns /\ start_datetime c <= ns <= end_datetime c) ->
      In r (filtered_df df c))
  /\
  (forall r, Float64.isnan (mag r) = true -> ~ In r (filtered_df df c)).
Proof.
  assert (Hiff : forall r,
      In r (filtered_df df c) <->
      In r df /\
      (Float64.isnan (mag r) = false /\
       Float64.le (min_mag c) (mag r) = true /\
       Float64.le (mag r) (max_mag c) = true) /\
      (exists ns, time r = Ts ns /\ start_datetime c <= ns <= end_datetime c)).
  { intros r. rewrite filtered_df_keeps, filter_In, keeps_spec. tauto. }
  split; [exact Hiff|split].
  - intros r Hin Hnan Heq Hmax Htime. apply Hiff.
    repeat split; auto. rewrite <- Heq. now apply Float64Facts.le_refl.
  - intros r Hnan Hin. apply Hiff in Hin.
    destruct Hin as [_ [[Hpresent _] _]]. congruence.
Qed.

(** The scenarios of the specification: a magnitude on the lower bound is
    kept, one just below it is dropped, and a missing magnitude is dropped
    under the widest magnitude range. *)
Example filter_boundary_kept :
  filtered_df [Sample.row 2.5 (Ts 0)] (mkCriteria 2.5 5 0 0)
  = [Sample.row 2.5 (Ts 0)].
Proof. reflexivity. Qed.

Example filter_below_boundary_dropped :
  filtered_df [Sample.row 2.49999 (Ts 0)] (mkCriteria 2.5 5 0 0) = [].
Proof. reflexivity. Qed.

Example filter_missing_magnitude_dropped :
  filtered_df [Sample.row nan (Ts 0)] (mkCriteria 0 10 0 0) = [].
Proof. reflexivity. Qed.

(** C4: criteria whose bounds are inverted, in time or in magnitude, are taken
    as they are: the filter is a total function, and on every frame, empty or
    not, its result for such criteria is the empty frame. *)
Theorem filter_inverted_criteria (df : DataFrame float) (c : FilterCriteria) :
  start_datetime c > end_datetime c \/
  Float64.gt (min_mag c) (max_mag c) = true ->
  filtered_df df c = [] /\ len (filtered_df df c) = 0%nat.
Proof.
  intros Hinv.
  assert (H : filtered_df df c = []).
  { rewrite filtered_df_keeps. apply filter_none. intros r _.
    apply keeps_inverted. destruct Hinv as [Ht|Hm]; [left; lia|now right]. }
  rewrite H. split; reflexivity.
Qed.

Lemma filter_inverted_criteria_witness :
  filtered_df [Sample.row 3 (Ts 0); Sample.row 6 (Ts 0)] (mkCriteria 5 2 0 0)
  = [] /\
  len (filtered_df [Sample.row 3 (Ts 0); Sample.row 6 (Ts 0)]
         (mkCriteria 5 2 0 0)) = 0%nat.
Proof.
  apply (filter_inverted_criteria
           [Sample.row 3 (Ts 0); Sample.row 6 (Ts 0)] (mkCriteria 5 2 0 0)).
  right. reflexivity.
Defined.

(** C5: the filter's output is a subsequence of its input: the retained rows
    sit at rising positions of the input, so any two of them keep their
    relative order; the output is no longer than the input; and criteria that
    no row satisfies give the empty frame. *)
Theorem filter_subsequence (df : DataFrame float) (c : FilterCriteria) :
  Subseq (filtered_df df c) df /\
  (exists pos : nat -> nat,
      (forall i j, (i < j < len (filtered_df df c))%nat ->
                   (pos i < pos j)%nat) /\
      (forall i, (i < len (filtered_df df c))%nat ->
                 nth_error df (pos i) = nth_error (filtered_df df c) i)) /\
  (len (filtered_df df c) <= len df)%nat /\
  ((forall r, In r df -> keeps c r = false) -> filtered_df df c = []).
Proof.
  assert (Hsub : Subseq (filtered_df df c) df).
  { rewrite filtered_df_keeps. apply Subseq_filter. }
  split; [exact Hsub|split; [|split]].
  - apply Subseq_positions, Hsub.
  - apply Subseq_length, Hsub.
  - intros Hnone. rewrite filtered_df_keeps. now apply filter_none.
Qed.

Lemma filter_subsequence_witness :
  filtered_df [Sample.row 1 (Ts 0); Sample.row 2 NaT] (mkCriteria 4 9 0 0) = [].
Proof.
  apply (filter_subsequence
           [Sample.row 1 (Ts 0); Sample.row 2 NaT] (mkCriteria 4 9 0 0)).
  intros r [<-|[<-|[]]]; reflexivity.
Defined.

(** C6: filtering is idempotent: filtering the filter's output again under
    the same criteria returns it unchanged. *)
Theorem filter_idem (df : DataFrame float) (c : FilterCriteria) :
  filtered_df (filtered_df df c) c = filtered_df df c.
Proof. rewrite !filtered_df_keeps. apply filter_idempotent. Qed.

(** C7: widening one bound of the criteria (a lower [min_mag], a higher
    [max_mag], an earlier start or a later end) never decreases the number of
    rows the filter returns. *)
Theorem filter_monotone (df : DataFrame float) (c c' : FilterCriteria) :
  widened c c' -> (len (filtered_df df c) <= len (filtered_df df c'))%nat.
Proof.
  intros Hw. unfold len. rewrite !filtered_df_keeps.
  apply filter_length_mono. intros r Hr.
  apply keeps_spec in Hr. destruct Hr as [[Hnan [Hmin Hmax]] [ns [Ht Hns]]].
  apply keeps_spec.
  destruct Hw as [m Hm|m Hm|t Hle|t Hle]; cbn;
    (split; [split; [exact Hnan|split]|exists ns; split; [exact Ht|]]);
    auto; try lia.
  - exact (Float64Facts.le_trans _ _ _ Hm Hmin).
  - exact (Float64Facts.le_trans _ _ _ Hmax Hm).
Qed.

Lemma filter_monotone_witness :
  (len (filtered_df [Sample.row 2 (Ts 5); Sample.row 3 (Ts 5)]
          (mkCriteria 2.5 10 0 9))
   <= len (filtered_df [Sample.row 2 (Ts 5); Sample.row 3 (Ts 5)]
             (mkCriteria 1 10 0 9)))%nat.
Proof.
  apply (filter_monotone [Sample.row 2 (Ts 5); Sample.row 3 (Ts 5)]
           (mkCriteria 2.5 10 0 9) (mkCriteria 1 10 0 9)).
  apply (lower_min (mkCriteria 2.5 10 0 9) 1). reflexivity.
Defined.

(** ** The feed loader *)

Section LoaderFacts.

Variable other : json -> result Timestamp.

Lemma mapM_parsable (features : list json) :
  forallb (parsable other) features = true ->
  exists rows, mapM (feature_record other) features = Ok rows /\
               List.length rows = List.length features.
Proof.
  induction features as [|f fs IH]; cbn.
  - intros _. exists []. split; reflexivity.
  - unfold parsable at 1. intros H. apply andb_true_iff in H.
    destruct H as [Hf Hfs]. destruct (IH Hfs) as [rows [Hrows Hlen]].
    destruct (feature_record other f) as [r|e]; [|discriminate].
    exists (r :: rows). cbn. rewrite Hrows. cbn. now rewrite Hlen.
Qed.

Lemma mapM_unparsable (features : list json) :
  forallb (parsable other) features = false ->
  exists e, mapM (feature_record other) features = Raise e.
Proof.
  induction features as [|f fs IH]; cbn; [discriminate|].
  unfold parsable at 1.
  destruct (feature_record other f) as [r|e]; cbn.
  - intros H. destruct (IH H) as [e He]. exists e. now rewrite He.
  - intros _. now exists e.
Qed.

Lemma load_try_features (status : Z) (data fv : json) (features : list json) :
  raise_for_status status = Ok tt ->
  Py.getitem data "features" = Ok fv ->
  Py.iter fv = Ok features ->
  load_try other (Response status (Some data))
  = mapM (feature_record other) features.
Proof.
  intros Hs Hget Hiter. unfold load_try. cbn.
  rewrite Hs. cbn. rewrite Hget. cbn. rewrite Hiter. cbn.
  now destruct (mapM (feature_record other) features).
Qed.

End LoaderFacts.

(** C1, as the code has it: once the request has succeeded and the payload
    lists its features, [load_data] returns one row per feature, with no
    advisory, exactly when every feature builds its row; as soon as one
    feature does not (its geometry is missing, its timestamp is refused), the
    whole load fails: the frame is empty and the advisory is shown. *)
Theorem load_data_all_or_nothing
    (other : json -> result Timestamp)
    (status : Z) (data fv : json) (features : list json) :
  raise_for_status status = Ok tt ->
  Py.getitem data "features" = Ok fv ->
  Py.iter fv = Ok features ->
  (forallb (parsable other) features = true ->
   len (fst (load_data other (Response status (Some data))))
   = List.length features /\
   snd (load_data other (Response status (Some data))) = []) /\
  (forallb (parsable other) features = false ->
   fst (load_data other (Response status (Some data))) = [] /\
   exists e, snd (load_data other (Response status (Some data))) = [StError e]).
Proof.
  intros Hs Hget Hiter. unfold load_data.
  rewrite (load_try_features other status data fv features Hs Hget Hiter).
  split; intros Hall.
  - destruct (mapM_parsable other features Hall) as [rows [-> Hlen]].
    cbn. split; [exact Hlen|reflexivity].
  - destruct (mapM_unparsable other features Hall) as [e ->].
    cbn. split; [reflexivity|now exists e].
Qed.

Lemma load_data_all_or_nothing_witness :
  len (fst (load_data Sample.reject
              (Response 200
                 (Some (Sample.payload
                          [Sample.feature (JString "Anza") (JFloat 1.5)
                             (JInt 1700000000000) (-116.5) 33.5 8])))))
  = 1%nat.
Proof.
  apply (load_data_all_or_nothing Sample.reject 200
           (Sample.payload
              [Sample.feature (JString "Anza") (JFloat 1.5)
                 (JInt 1700000000000) (-116.5) 33.5 8])
           (JArray
              [Sample.feature (JString "Anza") (JFloat 1.5)
                 (JInt 1700000000000) (-116.5) 33.5 8])
           [Sample.feature (JString "Anza") (JFloat 1.5)
              (JInt 1700000000000) (-116.5) 33.5 8]);
    reflexivity.
Defined.

(** C1, as the specification states it, fails: of three features, the second
    without geometry, the claim promises two rows and the code returns
    none. *)
Lemma load_data_one_bad_record :
  let features :=
    [Sample.feature (JString "Anza") (JFloat 1.5) (JInt 1700000000000)
       (-116.5) 33.5 8;
     Sample.no_geometry (JString "Ridgecrest") (JFloat 2.5)
       (JInt 1700000060000);
     Sample.feature (JString "Hilo") (JFloat 3.5) (JInt 1700000120000)
       (-155) 19.5 30] in
  let unparsable :=
    List.filter (fun f => negb (parsable Sample.reject f)) features in
  let out :=
    load_data Sample.reject (Response 200 (Some (Sample.payload features))) in
  (List.length features - List.length unparsable = 2)%nat /\
  len (fst out) = 0%nat /\
  out = ([], [StError (KeyError (JString "geometry"))]).
Proof. repeat split. Qed.

(** A timestamp that is refused fails the whole load in the same way. *)
Example load_data_one_bad_timestamp :
  load_data Sample.reject
    (Response 200
       (Some (Sample.payload
                [Sample.feature (JString "Anza") (JFloat 1.5)
                   (JInt 1700000000000) (-116.5) 33.5 8;
                 Sample.feature (JString "Hilo") (JFloat 3.5)
                   (JInt 1000000000000000000000000000000) (-155) 19.5
                   30])))
  = ([], [StError OutOfBoundsDatetime]).
Proof. reflexivity. Qed.

(** C3: when the request fails (no connection, a timeout, a 4xx or 5xx
    status), [load_data] returns the empty frame, on which the caller's test
    [df.empty] holds, together with one advisory; the exception stops at the
    [except] clause, [load_data] itself being a total function. *)
Theorem load_data_feed_unavailable
    (other : json -> result Timestamp) (h : http_outcome) :
  h = NetworkFailure \/ h = TimedOut \/
  (exists status body, h = Response status body /\ 400 <= status < 600) ->
  fst (load_data other h) = [] /\
  len (fst (load_data other h)) = 0%nat /\
  empty (fst (load_data other h)) = true /\
  exists e, snd (load_data other h) = [StError e].
Proof.
  intros [->|[->|[status [body [-> Hs]]]]]; unfold load_data, load_try; cbn.
  - repeat split. now exists ConnectionError.
  - repeat split. now exists Timeout.
  - unfold raise_for_status.
    replace ((400 <=? status) && (status <? 600)) with true
      by (symmetry; apply andb_true_iff; split;
          [apply Z.leb_le|apply Z.ltb_lt]; lia).
    cbn. repeat split. now exists (HTTPError status).
Qed.

Lemma load_data_feed_unavailable_witness :
  fst (load_data Sample.reject (Response 500 None)) = [] /\
  len (fst (load_data Sample.reject (Response 500 None))) = 0%nat /\
  empty (fst (load_data Sample.reject (Response 500 None))) = true /\
  exists e, snd (load_data Sample.reject (Response 500 None)) = [StError e].
Proof.
  apply (load_data_feed_unavailable Sample.reject (Response 500 None)).
  right. right. exists 500, None. split; [reflexivity|lia].
Defined.

(** ** Timestamps *)




(** ** The memoised loader *)

Lemma call_miss (other : json -> result Timestamp)
    (s : Cache.state) (now took : Z) (h : http_outcome) :
  Cache.hit s now = false ->
  Cache.call other s now took h
  = (load_data other h,
     Cache.mkState (Some (Cache.mkEntry (load_data other h) (now + took)))
       (S (Cache.requests s))).
Proof.
  unfold Cache.call, Cache.hit. intros Hmiss.
  destruct (Cache.cached s) as [e|]; [rewrite Hmiss|]; reflexivity.
Qed.

Lemma call_hit (other : json -> result Timestamp)
    (s : Cache.state) (now took : Z) (h : http_outcome) :
  Cache.hit s now = true ->
  exists e, Cache.cached s = Some e /\
            Cache.call other s now took h = (Cache.value e, s).
Proof.
  unfold Cache.call, Cache.hit. intros Hhit.
  destruct (Cache.cached s) as [e|]; [|discriminate].
  exists e. now rewrite Hhit.
Qed.

Lemma call_requests (other : json -> result Timestamp)
    (s : Cache.state) (now took : Z) (h : http_outcome) :
  (Cache.requests (snd (Cache.call other s now took h))
   <= S (Cache.requests s))%nat.
Proof.
  destruct (Cache.hit s now) eqn:E.
  - destruct (call_hit other s now took h E) as [e [_ ->]]. cbn. lia.
  - rewrite (call_miss other s now took h E). cbn. lia.
Qed.

(** C9: take two calls, the second one made after the first has returned.
    If they are less than 300 seconds apart they issue at most one request
    between them.  When the first call finds no live entry, so that it is
    the one that fetches: a second call less than 300 seconds later issues
    no request and returns what the first returned, one request in all; a
    second call made once the entry has been stored for 300 seconds issues a
    request of its own, two in all. *)
Theorem load_data_memoized
    (other : json -> result Timestamp)
    (s0 : Cache.state) (t0 took0 : Z) (h0 : http_outcome)
    (t1 took1 : Z) (h1 : http_outcome) :
  0 <= took0 ->
  t0 + took0 <= t1 ->
  let r0 := Cache.call other s0 t0 took0 h0 in
  let r1 := Cache.call other (snd r0) t1 took1 h1 in
  (t1 - t0 < Cache.ttl ->
   (Cache.requests (snd r1) <= S (Cache.requests s0))%nat) /\
  (Cache.hit s0 t0 = false ->
   fst r0 = load_data other h0 /\
   Cache.requests (snd r0) = S (Cache.requests s0) /\
   (t1 - t0 < Cache.ttl ->
    fst r1 = fst r0 /\ Cache.requests (snd r1) = S (Cache.requests s0)) /\
   (t0 + took0 + Cache.ttl <= t1 ->
    fst r1 = load_data other h1 /\
    Cache.requests (snd r1) = S (S (Cache.requests s0)))).
Proof.
  intros Htook Hseq r0 r1.
  assert (Hcold : Cache.hit s0 t0 = false ->
    fst r0 = load_data other h0 /\
    Cache.requests (snd r0) = S (Cache.requests s0) /\
    (t1 - t0 < Cache.ttl ->
     fst r1 = fst r0 /\ Cache.requests (snd r1) = S (Cache.requests s0)) /\
    (t0 + took0 + Cache.ttl <= t1 ->
     fst r1 = load_data other h1 /\
     Cache.requests (snd r1) = S (S (Cache.requests s0)))).
  { intros Hmiss. subst r1 r0. rewrite (call_miss other s0 t0 took0 h0 Hmiss).
    cbn. split; [reflexivity|split; [reflexivity|split]].
    - intros Hnear. unfold Cache.call, Cache.live, Cache.ttl in *. cbn.
      replace (t1 <? t0 + took0 + 300) with true
        by (symmetry; apply Z.ltb_lt; lia).
      split; reflexivity.
    - intros Hfar. unfold Cache.call, Cache.live, Cache.ttl in *. cbn.
      replace (t1 <? t0 + took0 + 300) with false
        by (symmetry; apply Z.ltb_ge; lia).
      split; reflexivity. }
  split; [|exact Hcold].
  intros Hnear. destruct (Cache.hit s0 t0) eqn:E.
  - subst r1 r0. destruct (call_hit other s0 t0 took0 h0 E) as [e [_ ->]].
    cbn. apply call_requests.
  - destruct (Hcold eq_refl) as [_ [_ [Hsame _]]].
    destruct (Hsame Hnear) as [_ ->]. lia.
Qed.

Lemma load_data_memoized_witness :
  Cache.requests
    (snd (Cache.call Sample.reject
            (snd (Cache.call Sample.reject Cache.cold 0 0 (Response 500 None)))
            1 0 (Response 500 None)))
  = 1%nat.
Proof.
  apply (load_data_memoized Sample.reject Cache.cold 0 0 (Response 500 None)
           1 0 (Response 500 None));
    try reflexivity; unfold Cache.ttl; lia.
Defined.

(** The scenario of the specification: two calls one second apart issue one
    request, two calls 301 seconds apart issue two. *)
Example cache_one_second_apart :
  let h := Response 200 (Some (Sample.payload [])) in
  let r0 := Cache.call Sample.reject Cache.cold 1000 0 h in
  let r1 := Cache.call Sample.reject (snd r0) 1001 0 NetworkFailure in
  Cache.requests (snd r1) = 1%nat /\ fst r1 = fst r0.
Proof. split; reflexivity. Qed.

Example cache_301_seconds_apart :
  let h := Response 200 (Some (Sample.payload [])) in
  let r0 := Cache.call Sample.reject Cache.cold 1000 0 h in
  let r1 := Cache.call Sample.reject (snd r0) 1301 0 NetworkFailure in
  Cache.requests (snd r1) = 2%nat /\
  fst r1 = ([], [StError ConnectionError]).
Proof. split; reflexivity. Qed.

(** ** The sidebar *)

Lemma slider_in_range (lo hi v : float) (pick : option float) :
  Float64.le lo v = true -> Float64.le v hi = true ->
  Float64.le lo (slider lo hi v pick) = true /\
  Float64.le (slider lo hi v pick) hi = true.
Proof.
  intros Hlo Hhi. unfold slider. destruct pick as [x|]; [|now split].
  destruct (Float64.le lo x && Float64.le x hi) eqn:E; [|now split].
  now apply andb_true_iff in E.
Qed.

(** C10: the criteria that the sidebar builds always satisfy
    [0 <= min_mag <= max_mag <= 10], the lower end of the maximum slider
    being the minimum just selected; so the magnitude bounds are never
    inverted, and a row whose magnitude is below 0 is in no filter result
    driven by the sidebar, although the loader does deliver such rows. *)
Theorem sidebar_magnitude_bounds
    (other : json -> result Timestamp) (u : sidebar_input) :
  (Float64.le 0 (min_mag (sidebar u)) = true /\
   Float64.le (min_mag (sidebar u)) (max_mag (sidebar u)) = true /\
   Float64.le (max_mag (sidebar u)) 10 = true) /\
  Float64.gt (min_mag (sidebar u)) (max_mag (sidebar u)) = false /\
  (forall df r, Float64.lt (mag r) 0 = true ->
                ~ In r (filtered_df df (sidebar u))) /\
  (exists h df r,
      float64_frame (fst (load_data other h)) = Some df /\
      In r df /\ Float64.lt (mag r) 0 = true).
Proof.
  destruct (slider_in_range 0 10 2.5 (pick_min_mag u) eq_refl eq_refl)
    as [Hmin0 Hmin10].
  destruct (slider_in_range (slider 0 10 2.5 (pick_min_mag u)) 10 10
              (pick_max_mag u) Hmin10 eq_refl) as [Hle Hmax10].
  assert (Hbounds :
    Float64.le 0 (min_mag (sidebar u)) = true /\
    Float64.le (min_mag (sidebar u)) (max_mag (sidebar u)) = true /\
    Float64.le (max_mag (sidebar u)) 10 = true) by (cbn; auto).
  split; [exact Hbounds|]. destruct Hbounds as [H0 [Hmm H10]].
  split; [|split].
  - destruct (Float64.gt (min_mag (sidebar u)) (max_mag (sidebar u))) eqn:E;
      [|reflexivity].
    rewrite (Float64Facts.lt_not_le _ _ E) in Hmm. discriminate.
  - intros df r Hneg Hin.
    rewrite filtered_df_keeps in Hin. apply filter_In in Hin.
    destruct Hin as [_ Hkeep]. apply keeps_spec in Hkeep.
    destruct Hkeep as [[_ [Hlow _]] _].
    pose proof (Float64Facts.le_trans _ _ _ H0 Hlow) as Hle0.
    rewrite (Float64Facts.lt_not_le _ _ Hneg) in Hle0. discriminate.
  - exists (Response 200
              (Some (Sample.payload
                       [Sample.feature (JString "Anza") (JFloat (-0.5))
                          (JInt 1700000000000) (-116.5) 33.5 8]))).
    eexists. eexists. split; [reflexivity|]. split; [now left|reflexivity].
Qed.

(** * Further properties of the code *)

(** ** Rows built from the feed *)

Section RecordFacts.

Local Open Scope string_scope.

Variable other : json -> result Timestamp.

Lemma mapM_Forall2 {A B : Type} (f : A -> result B) (l : list A)
    (rs : list B) :
  mapM f l = Ok rs -> Forall2 (fun a b => f a = Ok b) l rs.
Proof.
  revert rs. induction l as [|a l IH]; cbn; intros rs H.
  - injection H as <-. constructor.
  - destruct (f a) as [b|e] eqn:Ea; cbn in H; [|discriminate].
    destruct (mapM f l) as [bs|e]; cbn in H; [|discriminate].
    injection H as <-. constructor; [exact Ea|now apply IH].
Qed.

Lemma forallb_false_In {A : Type} (p : A -> bool) (l : list A) (x : A) :
  In x l -> p x = false -> forallb p l = false.
Proof.
  intros Hin Hp. destruct (forallb p l) eqn:E; [|reflexivity].
  rewrite forallb_forall in E. rewrite (E x Hin) in Hp. discriminate.
Qed.



(** Feed order: when the load succeeds, the rows of the frame are the
    records of the features, one for one and in the order of the payload. *)
Theorem load_data_feed_order
    (status : Z) (data fv : json) (features : list json) :
  raise_for_status status = Ok tt ->
  Py.getitem data "features" = Ok fv ->
  Py.iter fv = Ok features ->
  forallb (parsable other) features = true ->
  Forall2 (fun f r => feature_record other f = Ok r) features
    (fst (load_data other (Response status (Some data)))).
Proof.
  intros Hs Hget Hiter Hall. unfold load_data.
  rewrite (load_try_features other status data fv features Hs Hget Hiter).
  destruct (mapM_parsable other features Hall) as [rows [Hrows _]].
  rewrite Hrows. cbn. now apply mapM_Forall2.
Qed.

(** A geometry with fewer than three coordinates: the feature builds no row,
    and with it the whole load fails. *)
Theorem load_data_short_coordinates
    (status : Z) (data fv : json) (features : list json)
    (feature geometry : json) (coordinates : list json) :
  raise_for_status status = Ok tt ->
  Py.getitem data "features" = Ok fv ->
  Py.iter fv = Ok features ->
  In feature features ->
  Py.getitem feature "geometry" = Ok geometry ->
  Py.getitem geometry "coordinates" = Ok (JArray coordinates) ->
  (List.length coordinates < 3)%nat ->
  parsable other feature = false /\
  fst (load_data other (Response status (Some data))) = [] /\
  exists e, snd (load_data other (Response status (Some data))) = [StError e].
Proof.
  intros Hs Hget Hiter Hin Hg Hcs Hlen.
  assert (Hbad : parsable other feature = false).
  { unfold parsable, feature_record. rewrite Hg.
    destruct (Py.getitem feature "properties") as [p|]; cbn; [|reflexivity].
    destruct (Py.getitem p "place"); cbn; [|reflexivity].
    destruct (Py.getitem p "mag"); cbn; [|reflexivity].
    destruct (Py.getitem p "time") as [t|]; cbn; [|reflexivity].
    destruct (Pd.to_datetime other t); cbn; [|reflexivity].
    rewrite Hcs. cbn.
    destruct coordinates as [|c0 [|c1 [|c2 cs]]]; cbn in *;
      try reflexivity; lia. }
  split; [exact Hbad|].
  pose proof (forallb_false_In _ _ _ Hin Hbad) as Hall.
  unfold load_data.
  rewrite (load_try_features other status data fv features Hs Hget Hiter).
  destruct (mapM_unparsable other features Hall) as [e ->].
  cbn. split; [reflexivity|now exists e].
Qed.


(** Coordinates past the third are not read. *)
Remark feature_record_extra_coordinates
    (lon lat dep : json) (extra : list json)
    (geometry rest : list (string * json)) :
  feature_record other
    (JObject
       (("geometry",
          JObject (("coordinates", JArray (lon :: lat :: dep :: extra))
                     :: geometry)) :: rest))
  = feature_record other
      (JObject
         (("geometry",
            JObject (("coordinates", JArray [lon; lat; dep]) :: geometry))
            :: rest)).
Proof. reflexivity. Qed.

(** A body that is no JSON, a payload without [features], or one whose
    [features] cannot be iterated over: the frame is empty and the advisory
    is shown, as for a failed request. *)
Theorem load_data_malformed_payload (status : Z) (body : option json) :
  raise_for_status status = Ok tt ->
  body = None \/
  (exists data e, body = Some data /\ Py.getitem data "features" = Raise e) \/
  (exists data fv e, body = Some data /\ Py.getitem data "features" = Ok fv /\
                     Py.iter fv = Raise e) ->
  fst (load_data other (Response status body)) = [] /\
  exists e, snd (load_data other (Response status body)) = [StError e].
Proof.
  intros Hs [->|[[data [e [-> Hget]]]|[data [fv [e [-> [Hget Hiter]]]]]]];
    unfold load_data, load_try; cbn; rewrite Hs; cbn.
  - split; [reflexivity|now exists JSONDecodeError].
  - rewrite Hget. cbn. split; [reflexivity|now exists e].
  - rewrite Hget. cbn. rewrite Hiter. cbn. split; [reflexivity|now exists e].
Qed.

End RecordFacts.

(** ** The range and the order of timestamps *)

(** The conversion keeps the order of the instants: a converted timestamp
    compares with a converted bound as the two millisecond counts compare, so
    a window given in milliseconds selects the same events. *)
Theorem to_datetime_order (other : json -> result Timestamp) (t bound : Z) :
  Pd.in_bounds (t * Pd.ns_per_ms) = true ->
  exists ts,
    Pd.to_datetime other (JInt t) = Ok ts /\
    Series.ts_ge ts (bound * Pd.ns_per_ms) = (bound <=? t) /\
    Series.ts_le ts (bound * Pd.ns_per_ms) = (t <=? bound).
Proof.
  intros Hb. exists (Ts (t * Pd.ns_per_ms)). unfold Pd.to_datetime.
  rewrite Hb. cbn. unfold Pd.ns_per_ms. repeat split.
  - destruct (Z.leb_spec bound t);
      [apply Z.leb_le|apply Z.leb_gt]; lia.
  - destruct (Z.leb_spec t bound);
      [apply Z.leb_le|apply Z.leb_gt]; lia.
Qed.

Lemma to_datetime_order_witness :
  exists ts,
    Pd.to_datetime Sample.reject (JInt 1700000000000) = Ok ts /\
    Series.ts_ge ts (1600000000000 * Pd.ns_per_ms)
    = (1600000000000 <=? 1700000000000) /\
    Series.ts_le ts (1600000000000 * Pd.ns_per_ms)
    = (1700000000000 <=? 1600000000000).
Proof.
  apply (to_datetime_order Sample.reject 1700000000000 1600000000000).
  reflexivity.
Defined.

(** ** Composing filters *)

Lemma filter_filter {A : Type} (p q : A -> bool) (l : list A) :
  List.filter p (List.filter q l) = List.filter (fun x => q x && p x) l.
Proof.
  induction l as [|x l IH]; cbn; [reflexivity|].
  destruct (q x); cbn; [destruct (p x)|]; now rewrite IH.
Qed.

Lemma filter_ext_bool {A : Type} (p q : A -> bool) (l : list A) :
  (forall x, p x = q x) -> List.filter p l = List.filter q l.
Proof.
  intros H. induction l as [|x l IH]; cbn; [reflexivity|].
  now rewrite H, IH.
Qed.

Lemma keeps_widened (c c' : FilterCriteria) (r : Row float) :
  widened c c' -> keeps c r = true -> keeps c' r = true.
Proof.
  intros Hw Hr.
  apply keeps_spec in Hr. destruct Hr as [[Hnan [Hmin Hmax]] [ns [Ht Hns]]].
  apply keeps_spec.
  destruct Hw as [m Hm|m Hm|t Hle|t Hle]; cbn;
    (split; [split; [exact Hnan|split]|exists ns; split; [exact Ht|]]);
    auto; try lia.
  - exact (Float64Facts.le_trans _ _ _ Hm Hmin).
  - exact (Float64Facts.le_trans _ _ _ Hmax Hm).
Qed.

(** Two filters in a row keep the same rows in either order. *)
Theorem filter_commutes (df : DataFrame float) (c1 c2 : FilterCriteria) :
  filtered_df (filtered_df df c1) c2 = filtered_df (filtered_df df c2) c1.
Proof.
  rewrite !filtered_df_keeps, !filter_filter. apply filter_ext_bool.
  intros r. apply andb_comm.
Qed.

(** Narrowing: filtering a result again under criteria of which the first
    were a widening gives what the narrower criteria give on the whole
    frame. *)
Theorem filter_narrowing (df : DataFrame float) (c c' : FilterCriteria) :
  widened c c' ->
  filtered_df (filtered_df df c') c = filtered_df df c.
Proof.
  intros Hw. rewrite !filtered_df_keeps, filter_filter.
  apply filter_ext_bool. intros r.
  destruct (keeps c r) eqn:E.
  - now rewrite (keeps_widened c c' r Hw E).
  - apply andb_false_r.
Qed.

Lemma filter_narrowing_witness :
  filtered_df
    (filtered_df [Sample.row 2 (Ts 5); Sample.row 3 (Ts 5)]
       (mkCriteria 1 10 0 9))
    (mkCriteria 2.5 10 0 9)
  = filtered_df [Sample.row 2 (Ts 5); Sample.row 3 (Ts 5)]
      (mkCriteria 2.5 10 0 9).
Proof.
  apply (filter_narrowing [Sample.row 2 (Ts 5); Sample.row 3 (Ts 5)]
           (mkCriteria 2.5 10 0 9) (mkCriteria 1 10 0 9)).
  apply (lower_min (mkCriteria 2.5 10 0 9) 1). reflexivity.
Defined.

(** The filter works row by row: the result on two frames put end to end is
    the two results put end to end. *)
Theorem filter_concat (df1 df2 : DataFrame float) (c : FilterCriteria) :
  filtered_df (df1 ++ df2) c = filtered_df df1 c ++ filtered_df df2 c.
Proof. rewrite !filtered_df_keeps. apply filter_app. Qed.

(** ** The table *)

Section SortFacts.

Context {M : Type}.

Lemma insert_perm (asc : bool) (r : Row M) (l : DataFrame M) :
  Permutation (SortValues.insert asc r l) (r :: l).
Proof.
  induction l as [|x l IH]; cbn; [reflexivity|].
  destruct (SortValues.precedes asc r x); [reflexivity|].
  rewrite IH. apply perm_swap.
Qed.

Lemma sort_values_perm (asc : bool) (df : DataFrame M) :
  Permutation (sort_values asc df) df.
Proof.
  induction df as [|r df IH]; cbn; [constructor|].
  rewrite insert_perm. now constructor.
Qed.

Lemma precedes_total (asc : bool) (r x : Row M) :
  SortValues.precedes asc r x = false -> SortValues.precedes asc x r = true.
Proof.
  unfold SortValues.precedes.
  destruct (time r) as [|a], (time x) as [|b], asc;
    try discriminate; try reflexivity;
    rewrite Z.leb_gt, Z.leb_le; lia.
Qed.

Lemma precedes_trans (asc : bool) (r x y : Row M) :
  SortValues.precedes asc r x = true ->
  SortValues.precedes asc x y = true ->
  SortValues.precedes asc r y = true.
Proof.
  unfold SortValues.precedes.
  destruct (time r) as [|a], (time x) as [|b], (time y) as [|c], asc;
    try discriminate; try reflexivity;
    rewrite !Z.leb_le; lia.
Qed.

Lemma insert_sorted (asc : bool) (r : Row M) (l : DataFrame M) :
  Sorted (fun a b => SortValues.precedes asc a b = true) l ->
  Sorted (fun a b => SortValues.precedes asc a b = true)
    (SortValues.insert asc r l).
Proof.
  induction l as [|x l IH]; cbn; intros Hs.
  - repeat constructor.
  - destruct (SortValues.precedes asc r x) eqn:E.
    + constructor; [exact Hs|constructor; exact E].
    + inversion Hs as [|? ? Hl Hhd]; subst.
      constructor; [now apply IH|].
      destruct l as [|y l]; cbn.
      * constructor. now apply precedes_total.
      * destruct (SortValues.precedes asc r y);
          constructor; [now apply precedes_total|].
        inversion Hhd; subst. assumption.
Qed.

Lemma sort_values_sorted (asc : bool) (df : DataFrame M) :
  StronglySorted (fun a b => SortValues.precedes asc a b = true)
    (sort_values asc df).
Proof.
  apply Sorted_StronglySorted.
  - intros r x y. apply precedes_trans.
  - induction df as [|r df IH]; cbn; [constructor|now apply insert_sorted].
Qed.

Lemma StronglySorted_nth {A : Type} (R : A -> A -> Prop) (l : list A) :
  StronglySorted R l ->
  forall i j a b, (i < j)%nat ->
    nth_error l i = Some a -> nth_error l j = Some b -> R a b.
Proof.
  induction 1 as [|x l Hs IH Hall]; intros i j a b Hij Hi Hj.
  - destruct i; discriminate.
  - destruct j as [|j]; [lia|]. cbn in Hj. destruct i as [|i]; cbn in Hi.
    + injection Hi as <-. rewrite Forall_forall in Hall. apply Hall.
      eapply nth_error_In, Hj.
    + apply (IH i j); auto; lia.
Qed.

End SortFacts.

(** Sorting the table changes no row: the table holds the rows of the filter
    result, each as often as there, so the count under the map is the number
    of rows of the table. *)
Theorem display_same_rows (df : DataFrame float) (c : FilterCriteria)
    (o : sort_option) :
  Permutation (display_df df c o) (filtered_df df c) /\
  len (display_df df c o) = len (filtered_df df c) /\
  (forall r, In r (display_df df c o) <-> In r (filtered_df df c)).
Proof.
  pose proof (sort_values_perm (ascending o) (filtered_df df c)) as Hp.
  split; [exact Hp|split].
  - apply Permutation_length, Hp.
  - intros r. split; apply Permutation_in; [exact Hp|now symmetry].
Qed.

(** The table is in time order: of two of its rows the upper one is no later
    than the lower one under "Oldest First", and no earlier under "Latest
    First"; every row of the table has a timestamp. *)
Theorem display_in_time_order (df : DataFrame float) (c : FilterCriteria)
    (o : sort_option) (i j : nat) (ri rj : Row float) :
  (i < j)%nat ->
  nth_error (display_df df c o) i = Some ri ->
  nth_error (display_df df c o) j = Some rj ->
  exists a b,
    time ri = Ts a /\ time rj = Ts b /\
    match o with
    | OldestFirst => a <= b
    | LatestFirst => b <= a
    end.
Proof.
  intros Hij Hi Hj.
  assert (Hts : forall r, In r (display_df df c o) -> exists ns, time r = Ts ns).
  { intros r Hin. apply (Permutation_in r (sort_values_perm _ _)) in Hin.
    rewrite filtered_df_keeps in Hin. apply filter_In in Hin.
    destruct Hin as [_ Hk]. apply keeps_spec in Hk.
    destruct Hk as [_ [ns [Hns _]]]. now exists ns. }
  destruct (Hts ri (nth_error_In _ _ Hi)) as [a Ha].
  destruct (Hts rj (nth_error_In _ _ Hj)) as [b Hb].
  exists a, b. split; [exact Ha|split; [exact Hb|]].
  pose proof (StronglySorted_nth _ _
                (sort_values_sorted (ascending o) (filtered_df df c))
                i j ri rj Hij Hi Hj) as Hord.
  unfold SortValues.precedes in Hord. rewrite Ha, Hb in Hord.
  destruct o; cbn in Hord; apply Z.leb_le in Hord; exact Hord.
Qed.

Lemma display_in_time_order_witness :
  exists a b,
    time (Sample.row 4 (Ts 7)) = Ts a /\ time (Sample.row 3 (Ts 2)) = Ts b /\
    b <= a.
Proof.
  apply (display_in_time_order
           [Sample.row 3 (Ts 2); Sample.row 1 (Ts 5); Sample.row 4 (Ts 7)]
           (mkCriteria 2.5 10 0 9) LatestFirst 0 1
           (Sample.row 4 (Ts 7)) (Sample.row 3 (Ts 2)));
    [lia|reflexivity|reflexivity].
Defined.

(** ** The page *)

(** A feed that lists no feature: the load succeeds and the loader shows no
    advisory, yet the page is the one of a failed load. *)
Theorem main_empty_feed (other : json -> result Timestamp)
    (status : Z) (data fv : json) :
  raise_for_status status = Ok tt ->
  Py.getitem data "features" = Ok fv ->
  Py.iter fv = Ok [] ->
  load_try other (Response status (Some data)) = Ok [] /\
  main (load_data other (Response status (Some data))) = ([], Unable).
Proof.
  intros Hs Hget Hiter.
  pose proof (load_try_features other status data fv [] Hs Hget Hiter) as H.
  unfold main, load_data. rewrite H. split; reflexivity.
Qed.

Lemma main_empty_feed_witness :
  load_try Sample.reject (Response 200 (Some (Sample.payload []))) = Ok [] /\
  main (load_data Sample.reject (Response 200 (Some (Sample.payload []))))
  = ([], Unable).
Proof.
  apply (main_empty_feed Sample.reject 200 (Sample.payload []) (JArray []));
    reflexivity.
Defined.

(** ** Reruns and the cache *)

(** A failed load is memoised like any other: for the 300 seconds that
    follow, a call returns the empty frame and the advisory of the failure
    without trying the feed again, whatever the feed would answer. *)
Theorem cache_keeps_failure
    (other : json -> result Timestamp)
    (s0 : Cache.state) (t0 took0 : Z) (h0 : http_outcome) (e : exn)
    (t1 took1 : Z) (h1 : http_outcome) :
  Cache.hit s0 t0 = false ->
  load_try other h0 = Raise e ->
  0 <= took0 ->
  t0 + took0 <= t1 ->
  t1 - t0 < Cache.ttl ->
  fst (Cache.call other (snd (Cache.call other s0 t0 took0 h0)) t1 took1 h1)
  = ([], [StError e]) /\
  Cache.requests
    (snd (Cache.call other (snd (Cache.call other s0 t0 took0 h0)) t1 took1 h1))
  = S (Cache.requests s0).
Proof.
  intros Hmiss Hfail Htook Hseq Hnear.
  rewrite (call_miss other s0 t0 took0 h0 Hmiss). cbn.
  unfold Cache.call, Cache.live, Cache.ttl in *. cbn.
  replace (t1 <? t0 + took0 + 300) with true
    by (symmetry; apply Z.ltb_lt; lia).
  cbn. unfold load_data. rewrite Hfail. split; reflexivity.
Qed.

Lemma cache_keeps_failure_witness :
  fst (Cache.call Sample.reject
         (snd (Cache.call Sample.reject Cache.cold 0 2 TimedOut))
         10 0 (Response 200 (Some (Sample.payload []))))
  = ([], [StError Timeout]) /\
  Cache.requests
    (snd (Cache.call Sample.reject
            (snd (Cache.call Sample.reject Cache.cold 0 2 TimedOut))
            10 0 (Response 200 (Some (Sample.payload [])))))
  = 1%nat.
Proof.
  apply (cache_keeps_failure Sample.reject Cache.cold 0 2 TimedOut Timeout
           10 0 (Response 200 (Some (Sample.payload []))));
    try reflexivity; unfold Cache.ttl; lia.
Defined.

(** While an entry is live, any number of runs is served from it: every run
    gets the stored value, no request is issued and the cache stays as it
    is. *)
Theorem reruns_served_from_cache
    (other : json -> result Timestamp)
    (s : Cache.state) (e : Cache.entry) (runs : list rerun) :
  Cache.cached s = Some e ->
  (forall r, In r runs -> started r < Cache.stored_at e + Cache.ttl) ->
  reruns other s runs = (map (fun _ => Cache.value e) runs, s).
Proof.
  intros Hc. induction runs as [|r runs IH]; intros Hlive; [reflexivity|].
  cbn. unfold Cache.call. rewrite Hc. unfold Cache.live.
  replace (started r <? Cache.stored_at e + Cache.ttl) with true
    by (symmetry; apply Z.ltb_lt, Hlive; now left).
  cbn. rewrite IH by (intros r' Hr'; apply Hlive; now right). reflexivity.
Qed.

Lemma reruns_served_from_cache_witness :
  reruns Sample.reject
    (Cache.mkState (Some (Cache.mkEntry ([], []) 100)) 1)
    [mkRerun 150 1 NetworkFailure; mkRerun 399 1 (Response 500 None)]
  = ([([], []); ([], [])],
     Cache.mkState (Some (Cache.mkEntry ([], []) 100)) 1).
Proof.
  apply (reruns_served_from_cache Sample.reject
           (Cache.mkState (Some (Cache.mkEntry ([], []) 100)) 1)
           (Cache.mkEntry ([], []) 100)
           [mkRerun 150 1 NetworkFailure; mkRerun 399 1 (Response 500 None)]);
    [reflexivity|].
  intros r [<-|[<-|[]]]; unfold Cache.ttl; cbn; lia.
Defined.

Lemma reruns_requests_bound (other : json -> result Timestamp)
    (runs : list rerun) :
  forall (s : Cache.state) (e : Cache.entry) (a d now : Z),
    sequential now runs ->
    d <= now ->
    a <= d ->
    Cache.cached s = Some e ->
    a <= Cache.stored_at e ->
    Cache.ttl * (Z.of_nat (Cache.requests (snd (reruns other s runs)))
                 - Z.of_nat (Cache.requests s))
    <= last_started d runs - a.
Proof.
  induction runs as [|r rest IH]; intros s e a d now Hseq Hd Ha Hc Hst.
  - cbn [reruns snd last_started]. unfold Cache.ttl. lia.
  - cbn [reruns sequential last_started snd] in *.
    destruct Hseq as [Hnow [Htook Hseq]].
    unfold Cache.call. rewrite Hc.
    destruct (Cache.live (started r) e) eqn:L; cbn [snd].
    + apply (IH s e a (started r) (started r + took r)); auto; lia.
    + unfold Cache.live in L. apply Z.ltb_ge in L.
      pose proof (IH (Cache.mkState
                        (Some (Cache.mkEntry (load_data other (outcome r))
                                 (started r + took r)))
                        (S (Cache.requests s)))
                     (Cache.mkEntry (load_data other (outcome r))
                        (started r + took r))
                     (started r) (started r) (started r + took r)
                     Hseq ltac:(lia) ltac:(lia) eq_refl ltac:(cbn; lia)) as H.
      cbn [Cache.requests] in H. unfold Cache.ttl in *. lia.
Qed.

(** The request rate: over any sequence of runs, each starting when the call
    before it has returned, 300 seconds times the number of requests but one
    is at most the time from the first run to the last.  No more than one
    request is issued per 300 seconds, whatever the cache held before. *)
Theorem reruns_request_rate
    (other : json -> result Timestamp)
    (s : Cache.state) (now : Z) (r : rerun) (rest : list rerun) :
  sequential now (r :: rest) ->
  Cache.ttl * (Z.of_nat (Cache.requests (snd (reruns other s (r :: rest))))
               - Z.of_nat (Cache.requests s) - 1)
  <= last_started (started r) rest - started r.
Proof.
  intros [Hnow [Htook Hseq]]. cbn [reruns snd].
  destruct (Cache.hit s (started r)) eqn:E.
  - destruct (call_hit other s (started r) (took r) (outcome r) E)
      as [e [Hc ->]]. cbn [snd].
    unfold Cache.hit in E. rewrite Hc in E. unfold Cache.live in E.
    apply Z.ltb_lt in E.
    pose proof (reruns_requests_bound other rest s e
                  (started r - Cache.ttl) (started r) (started r + took r)
                  Hseq ltac:(lia) ltac:(unfold Cache.ttl; lia) Hc
                  ltac:(lia)) as H.
    unfold Cache.ttl in *. lia.
  - rewrite (call_miss other s (started r) (took r) (outcome r) E). cbn [snd].
    pose proof (reruns_requests_bound other rest
                  (Cache.mkState
                     (Some (Cache.mkEntry (load_data other (outcome r))
                              (started r + took r)))
                     (S (Cache.requests s)))
                  (Cache.mkEntry (load_data other (outcome r))
                     (started r + took r))
                  (started r) (started r) (started r + took r)
                  Hseq ltac:(lia) ltac:(lia) eq_refl ltac:(cbn; lia)) as H.
    cbn [Cache.requests] in H. unfold Cache.ttl in *. lia.
Qed.

Lemma reruns_request_rate_witness :
  Cache.ttl
  * (Z.of_nat
       (Cache.requests
          (snd (reruns Sample.reject Cache.cold
                  [mkRerun 0 1 TimedOut; mkRerun 200 1 TimedOut;
                   mkRerun 400 1 TimedOut; mkRerun 500 1 TimedOut])))
     - Z.of_nat (Cache.requests Cache.cold) - 1)
  <= last_started 0
       [mkRerun 200 1 TimedOut; mkRerun 400 1 TimedOut; mkRerun 500 1 TimedOut]
     - 0.
Proof.
  apply (reruns_request_rate Sample.reject Cache.cold 0
           (mkRerun 0 1 TimedOut)
           [mkRerun 200 1 TimedOut; mkRerun 400 1 TimedOut;
            mkRerun 500 1 TimedOut]).
  cbn. lia.
Defined.

(** ** Auto refresh *)

(** With auto refresh on, the interval lies between 1 and 30 minutes, so the
    page sleeps between 60 and 1800 seconds.  From 5 minutes on (5 is where
    the slider starts), the run that follows the sleep finds no live entry
    and fetches the feed again: the entry it could find was stored before
    the sleep began, at least 300 seconds earlier. *)
Theorem auto_refresh_refetches
    (other : json -> result Timestamp)
    (pick : option Z) (k : Z)
    (s0 : Cache.state) (t0 took0 : Z) (h0 : http_outcome)
    (t1 took1 : Z) (h1 : http_outcome) :
  refresh_interval true pick = Some k ->
  (1 <= k <= 30 /\ 60 <= sleep_seconds k <= 1800) /\
  (5 <= k ->
   (forall e, Cache.cached s0 = Some e -> Cache.stored_at e <= t0) ->
   0 <= took0 ->
   t0 + took0 + sleep_seconds k <= t1 ->
   fst (Cache.call other (snd (Cache.call other s0 t0 took0 h0)) t1 took1 h1)
   = load_data other h1 /\
   Cache.requests
     (snd (Cache.call other (snd (Cache.call other s0 t0 took0 h0))
             t1 took1 h1))
   = S (Cache.requests (snd (Cache.call other s0 t0 took0 h0)))).
Proof.
  intros Hk. unfold refresh_interval, slider_int in Hk.
  assert (Hrange : 1 <= k <= 30).
  { destruct pick as [v|]; [|injection Hk as <-; lia].
    destruct ((1 <=? v) && (v <=? 30)) eqn:E; injection Hk as <-; [|lia].
    apply andb_true_iff in E. destruct E as [E1 E2].
    apply Z.leb_le in E1, E2. lia. }
  split; [unfold sleep_seconds; lia|].
  intros H5 Hpast Htook Hlate. unfold sleep_seconds in Hlate.
  assert (Hmiss : Cache.hit (snd (Cache.call other s0 t0 took0 h0)) t1 = false).
  { destruct (Cache.hit s0 t0) eqn:E.
    - destruct (call_hit other s0 t0 took0 h0 E) as [e [Hc ->]]. cbn.
      unfold Cache.hit. rewrite Hc. unfold Cache.live, Cache.ttl.
      specialize (Hpast e Hc). apply Z.ltb_ge. lia.
    - rewrite (call_miss other s0 t0 took0 h0 E). cbn.
      unfold Cache.hit, Cache.live, Cache.ttl. cbn. apply Z.ltb_ge. lia. }
  rewrite (call_miss other _ t1 took1 h1 Hmiss). split; reflexivity.
Qed.

Lemma auto_refresh_refetches_witness :
  Cache.requests
    (snd (Cache.call Sample.reject
            (snd (Cache.call Sample.reject Cache.cold 0 1 (Response 500 None)))
            301 1 (Response 500 None)))
  = S (Cache.requests
         (snd (Cache.call Sample.reject Cache.cold 0 1 (Response 500 None)))).
Proof.
  apply (auto_refresh_refetches Sample.reject None 5 Cache.cold 0 1
           (Response 500 None) 301 1 (Response 500 None));
    try reflexivity; try (unfold sleep_seconds; lia).
  intros e H. discriminate.
Defined.

(** A load that raises leaves the page of the failure: the loader's advisory
    and the page's own, no dashboard, and no sleep and rerun either, so the
    page does not retry by itself even where auto refresh had been on. *)
Theorem main_failure_no_retry
    (other : json -> result Timestamp) (h : http_outcome) (e : exn)
    (auto_refresh : bool) (pick : option Z) :
  load_try other h = Raise e ->
  main (load_data other h) = ([StError e], Unable) /\
  rerun_after (load_data other h) auto_refresh pick = None.
Proof.
  intros H. unfold main, rerun_after, load_data. rewrite H. split; reflexivity.
Qed.

Lemma main_failure_no_retry_witness :
  main (load_data Sample.reject TimedOut) = ([StError Timeout], Unable) /\
  rerun_after (load_data Sample.reject TimedOut) true (Some 1) = None.
Proof.
  apply (main_failure_no_retry Sample.reject TimedOut Timeout true (Some 1)).
  reflexivity.
Defined.

(** ** Witnesses for the rows built from the feed *)

Lemma load_data_feed_order_witness :
  Forall2 (fun f r => feature_record Sample.reject f = Ok r)
    [Sample.feature (JString "Anza") (JFloat 1.5) (JInt 1700000000000)
       (-116.5) 33.5 8;
     Sample.feature (JString "Hilo") JNull JNull (-155) 19.5 30]
    (fst (load_data Sample.reject
            (Response 200
               (Some (Sample.payload
                        [Sample.feature (JString "Anza") (JFloat 1.5)
                           (JInt 1700000000000) (-116.5) 33.5 8;
                         Sample.feature (JString "Hilo") JNull JNull
                           (-155) 19.5 30]))))).
Proof.
  apply (load_data_feed_order Sample.reject 200
           (Sample.payload
              [Sample.feature (JString "Anza") (JFloat 1.5)
                 (JInt 1700000000000) (-116.5) 33.5 8;
               Sample.feature (JString "Hilo") JNull JNull (-155) 19.5 30])
           (JArray
              [Sample.feature (JString "Anza") (JFloat 1.5)
                 (JInt 1700000000000) (-116.5) 33.5 8;
               Sample.feature (JString "Hilo") JNull JNull (-155) 19.5 30]));
    reflexivity.
Defined.

Lemma load_data_short_coordinates_witness :
  fst (load_data Sample.reject
         (Response 200
            (Some (Sample.payload
                     [JObject
                        [("properties",
                           JObject [("mag", JFloat 1.5);
                                    ("place", JString "Anza");
                                    ("time", JInt 1700000000000)]);
                         ("geometry",
                           JObject
                             [("coordinates",
                                JArray [JFloat (-116.5); JFloat 33.5])])]
                     ]%string))))
  = [].
Proof.
  apply (load_data_short_coordinates Sample.reject 200
           (Sample.payload
              [JObject
                 [("properties",
                    JObject [("mag", JFloat 1.5); ("place", JString "Anza");
                             ("time", JInt 1700000000000)]);
                  ("geometry",
                    JObject
                      [("coordinates",
                         JArray [JFloat (-116.5); JFloat 33.5])])]
              ]%string)
           (JArray
              [JObject
                 [("properties",
                    JObject [("mag", JFloat 1.5); ("place", JString "Anza");
                             ("time", JInt 1700000000000)]);
                  ("geometry",
                    JObject
                      [("coordinates",
                         JArray [JFloat (-116.5); JFloat 33.5])])]
              ]%string)
           [JObject
              [("properties",
                 JObject [("mag", JFloat 1.5); ("place", JString "Anza");
                          ("time", JInt 1700000000000)]);
               ("geometry",
                 JObject
                   [("coordinates",
                      JArray [JFloat (-116.5); JFloat 33.5])])]
           ]%string
           (JObject
              [("properties",
                 JObject [("mag", JFloat 1.5); ("place", JString "Anza");
                          ("time", JInt 1700000000000)]);
               ("geometry",
                 JObject
                   [("coordinates",
                      JArray [JFloat (-116.5); JFloat 33.5])])]%string)
           (JObject
              [("coordinates", JArray [JFloat (-116.5); JFloat 33.5])]%string)
           [JFloat (-116.5); JFloat 33.5]);
    try reflexivity; [now left|cbn; lia].
Defined.

Lemma load_data_malformed_payload_witness :
  fst (load_data Sample.reject (Response 200 None)) = [] /\
  exists e, snd (load_data Sample.reject (Response 200 None)) = [StError e].
Proof.
  apply (load_data_malformed_payload Sample.reject 200 None);
    [reflexivity|now left].
Defined.
